(** * EEG AI analysis server (src/app.py): a shallow embedding

    The Flask handlers of [src/app.py] are modelled as pure functions.
    - Python strings are [String.string] (characters are code points
      0..255); the string methods used by the code ([strip], [lower],
      [split('\n')], [startswith], [replace], [in], slicing) are written
      out below.
    - Python exceptions are the [Err] case of [py_result]; a handler whose
      exception escapes answers Flask's 500 page ([Resp500]).
    - Python ints are [Z].  A float is a finite binary64 number, represented
      by its exact value in [Q]; [round_double] is round-to-nearest-even
      with overflow detection, so [sum(xs) / len(xs)], [float(x)] and the
      float operations of [calculate_variance] are rounded and raise
      [OverflowError] as CPython does.
    - Request bodies are JSON values ([json]); JSON numbers are integers
      here (numbers with a fraction or an exponent, NaN and Infinity are
      outside the model).  [None] stands for a body on which [request.json]
      raises (not JSON, or not sent as JSON; Flask 2.1 and later).
    - The single HTTP exchange with the Groq API is an input of the model
      ([http_outcome]); [call_groq_api] turns it into a JSON value or a
      Python exception, as the source does. *)

From Stdlib Require Import ZArith QArith List String Ascii Bool Lia.
Import ListNotations.
Open Scope string_scope.

(** ** Python string operations *)

Module PyStr.

Local Open Scope nat_scope.

(** [str.isspace] on code points 0..255. *)
Definition is_space (c : ascii) : bool :=
  let n := nat_of_ascii c in
  ((9 <=? n) && (n <=? 13)) || ((28 <=? n) && (n <=? 32))
  || (n =? 133) || (n =? 160).

Fixpoint drop_space (l : list ascii) : list ascii :=
  match l with
  | [] => []
  | c :: r => if is_space c then drop_space r else l
  end.

(** [s.strip()] *)
Definition strip (s : string) : string :=
  string_of_list_ascii
    (rev (drop_space (rev (drop_space (list_ascii_of_string s))))).

(** [c.lower()] for code points 0..255: A-Z and the Latin-1 capitals
    (192..222 except the multiplication sign 215). *)
Definition lower_char (c : ascii) : ascii :=
  let n := nat_of_ascii c in
  if ((65 <=? n) && (n <=? 90)) || ((192 <=? n) && (n <=? 222) && negb (n =? 215))
  then ascii_of_nat (n + 32) else c.

Fixpoint lower (s : string) : string :=
  match s with
  | EmptyString => EmptyString
  | String c r => String (lower_char c) (lower r)
  end.

(** [sub in s]: substring containment. *)
Fixpoint contains (sub s : string) : bool :=
  if String.prefix sub s then true
  else match s with
       | EmptyString => false
       | String _ r => contains sub r
       end.

(** [s.startswith(p)] *)
Definition startswith (p s : string) : bool := String.prefix p s.

(** [s.replace(old, "")] for a non-empty [old]: every non-overlapping
    occurrence, scanned from the left, is removed. *)
Fixpoint remove_all_fuel (fuel : nat) (old s : string) : string :=
  match fuel with
  | O => s
  | S f =>
      if String.prefix old s then
        remove_all_fuel f old (substring (String.length old) (String.length s) s)
      else match s with
           | EmptyString => EmptyString
           | String c r => String c (remove_all_fuel f old r)
           end
  end.

Definition replace_empty (old s : string) : string :=
  remove_all_fuel (S (String.length s)) old s.

Definition newline : ascii := ascii_of_nat 10.

(** [s.split('\n')] *)
Fixpoint split_nl_aux (cur : list ascii) (l : list ascii) : list string :=
  match l with
  | [] => [string_of_list_ascii (rev cur)]
  | c :: r =>
      if Ascii.eqb c newline then string_of_list_ascii (rev cur) :: split_nl_aux [] r
      else split_nl_aux (c :: cur) r
  end.

Definition split_nl (s : string) : list string :=
  split_nl_aux [] (list_ascii_of_string s).

(** [s[:n]] *)
Definition slice_to (n : nat) (s : string) : string := substring 0 n s.

(** [str(n)] for an integer: the decimal digits of [|z|], most
    significant first, after a minus sign for a negative [z].  The fuel
    [1 + log2 |z|] bounds the number of digits. *)
Fixpoint digits_Z (fuel : nat) (n : Z) (acc : string) : string :=
  match fuel with
  | O => acc
  | S f =>
      let d := String (ascii_of_nat (48 + Z.to_nat (n mod 10))) acc in
      if (n <? 10)%Z then d else digits_Z f (n / 10)%Z d
  end.

Definition str_Z (z : Z) : string :=
  let ds := digits_Z (S (Z.to_nat (Z.log2 (Z.abs z)))) (Z.abs z) "" in
  if (z <? 0)%Z then "-" ++ ds else ds.

End PyStr.

(** ** Python exceptions *)

Inductive py_exc :=
  | RequestException            (* [requests.post] raised: timeout, connection *)
  | GroqAPIError (status : Z) (text : string)  (* the [raise] on a non-200 status *)
  | JSONDecodeError             (* [response.json()] on a body that is not JSON *)
  | KeyError
  | IndexError
  | TypeError
  | AttributeError
  | ZeroDivisionError
  | OverflowError.              (* a float result or conversion out of range *)

Inductive py_result (A : Type) :=
  | Ok (a : A)
  | Err (e : py_exc).
Arguments Ok {A} a.
Arguments Err {A} e.

Definition bind {A B} (m : py_result A) (k : A -> py_result B) : py_result B :=
  match m with
  | Ok a => k a
  | Err e => Err e
  end.

Notation "x <- m ;; k" := (bind m (fun x => k))
  (at level 61, m at next level, right associativity).

(** ** Integers and floats *)

Open Scope Z_scope.

Fixpoint sum (xs : list Z) : Z :=
  match xs with
  | [] => 0%Z
  | x :: r => (x + sum r)%Z
  end.

(** [2^t <= n / b], for [n] and [b] positive. *)
Definition pow2_le (t n b : Z) : bool :=
  if 0 <=? t then b * 2 ^ t <=? n else b <=? n * 2 ^ (- t).

(** Rounding to binary64 (53-bit significand, subnormals down to
    [2^-1074]), to nearest with ties to an even significand.  [None] when
    the rounded magnitude reaches [2^1024], i.e. leaves the finite range. *)
Definition round_double (q : Q) : option Q :=
  let n := Z.abs (Qnum q) in
  let b := Zpos (Qden q) in
  if n =? 0 then Some 0%Q else
  (* [2^t <= n / b < 2^(t+1)] *)
  let t0 := Z.log2 n - Z.log2 b in
  let t := if pow2_le t0 n b then t0 else t0 - 1 in
  (* weight [2^k] of the last significand bit *)
  let k := Z.max (t - 52) (-1074) in
  let num := n * 2 ^ Z.max (- k) 0 in
  let den := b * 2 ^ Z.max k 0 in
  let m0 := num / den in
  let r := num mod den in
  let m := if (den <? 2 * r) || ((2 * r =? den) && Z.odd m0) then m0 + 1 else m0 in
  if pow2_le 1024 (m * 2 ^ Z.max k 0) (2 ^ Z.max (- k) 0) then None
  else Some (Qred (Qmake (Z.sgn (Qnum q) * m * 2 ^ Z.max k 0) (Z.to_pos (2 ^ Z.max (- k) 0)))).

(** [a / b] on Python ints: the correctly rounded quotient, raising
    [ZeroDivisionError] for [b = 0] and [OverflowError] when the quotient
    is out of the float range. *)
Definition int_truediv (a b : Z) : py_result Q :=
  if b =? 0 then Err ZeroDivisionError
  else match round_double (inject_Z a / inject_Z b)%Q with
       | Some f => Ok f
       | None => Err OverflowError
       end.

(** [float(x)] on a Python int (done implicitly by [x - f] for a float
    [f]): [OverflowError] beyond the float range. *)
Definition int_to_float (x : Z) : py_result Q :=
  match round_double (inject_Z x) with
  | Some f => Ok f
  | None => Err OverflowError
  end.

(** [sum(xs) / len(xs)] on a list of ints. *)
Definition mean (xs : list Z) : py_result Q :=
  int_truediv (sum xs) (Z.of_nat (List.length xs)).

(** [int(x)] on a float: truncation toward zero. *)
Definition py_int (q : Q) : Z := Z.quot (Qnum q) (Zpos (Qden q)).

(** [x > k] and [x < k] for a float [x] and an int threshold [k]: Python
    compares them exactly. *)
Definition gt (q : Q) (k : Z) : bool := negb (Qle_bool q (inject_Z k)).
Definition lt (q : Q) (k : Z) : bool := negb (Qle_bool (inject_Z k) q).

(** ** JSON values *)

Local Set Warnings "-register-all".

Inductive json :=
  | JNull
  | JBool (b : bool)
  | JNum (z : Z)
  | JStr (s : string)
  | JArr (xs : list json)
  | JObj (kvs : list (string * json)).

(** [json.loads] keeps the last of duplicated keys. *)
Definition assoc_last (k : string) (kvs : list (string * json)) : option json :=
  fold_left (fun acc kv => if String.eqb (fst kv) k then Some (snd kv) else acc) kvs None.

(** [d.get(k, default)] on a dict. *)
Definition get_or (k : string) (kvs : list (string * json)) (default : json) : json :=
  match assoc_last k kvs with
  | Some v => v
  | None => default
  end.

(** Python truthiness of a JSON value ([if v], [not v]). *)
Definition py_truthy (v : json) : bool :=
  match v with
  | JNull => false
  | JBool b => b
  | JNum z => negb (z =? 0)
  | JStr s => negb (String.eqb s "")
  | JArr xs => match xs with [] => false | _ => true end
  | JObj kvs => match kvs with [] => false | _ => true end
  end.

(** The items [sum] adds: ints, and booleans as 1 and 0; any other item
    makes [sum] raise [TypeError]. *)
Fixpoint ints_of (xs : list json) : py_result (list Z) :=
  match xs with
  | [] => Ok []
  | JNum z :: r => zs <- ints_of r ;; Ok (z :: zs)
  | JBool b :: r => zs <- ints_of r ;; Ok ((if b then 1 else 0) :: zs)
  | _ :: _ => Err TypeError
  end.

(** A JSON value as the iterable of [sum(v)]: a list; the empty string
    and the empty dict iterate nothing; a non-empty string or dict yields
    strings and a number or null is not iterable, all [TypeError]. *)
Definition as_int_list (v : json) : py_result (list Z) :=
  match v with
  | JArr xs => ints_of xs
  | JStr EmptyString | JObj [] => Ok []
  | _ => Err TypeError
  end.

(** [sum(v) / len(v)] for the JSON value [v] of a series. *)
Definition series_mean (v : json) : py_result Q :=
  xs <- as_int_list v ;; mean xs.

(** [sum(v) / len(v) if v else 0], the blink average. *)
Definition blink_mean (v : json) : py_result Q :=
  if py_truthy v then series_mean v else Ok 0%Q.

(** ** Results *)

Record analysis_result := mk_result {
  mentalState : string;
  analysis : string;
  recommendation : string;
  stressLevel : Z
}.

(** [calculate_stress_level] *)
Definition calculate_stress_level (avg_attention avg_meditation : Q) : Z :=
  if gt avg_attention 70 && lt avg_meditation 40 then 75
  else if lt avg_attention 40 && gt avg_meditation 70 then 25
  else if gt avg_attention 60 && gt avg_meditation 60 then 30
  else 50.

(** ** Rule-based classifiers *)

(** One term [(x - mean) ** 2] of [calculate_variance]: [x - mean]
    converts the int [x] to a float ([OverflowError] beyond the float
    range) and rounds the difference, which may overflow to an infinity
    without raising; [** 2] on an infinity gives an infinity, and on a
    finite [d] raises [OverflowError] when [d * d] leaves the float range
    (C [pow] taken as correctly rounded).  The value of the term is not
    kept: see [calculate_variance]. *)
Definition square_term (mu : Q) (x : Z) : py_result unit :=
  fx <- int_to_float x ;;
  match round_double (fx - mu)%Q with
  | None => Ok tt
  | Some d =>
      match round_double (d * d)%Q with
      | Some _ => Ok tt
      | None => Err OverflowError
      end
  end.

(** The generator of [sum(...)]: its terms in order, the first exception
    escaping. *)
Fixpoint all_terms (f : Z -> py_result unit) (xs : list Z) : py_result unit :=
  match xs with
  | [] => Ok tt
  | x :: r => _ <- f x ;; all_terms f r
  end.

(** [calculate_variance(data)].  Its one caller passes the attention
    series right after [sum(data) / len(data)] succeeded on it, so [data]
    is that list of ints.  The standard deviation it returns is never read
    by the caller ([att_variance] is unused), so only whether the call
    raises is modelled: the float sum of the squares, [/ len(data)] and
    [** 0.5] never raise (they may reach an infinity), the terms may. *)
Definition calculate_variance (data : list Z) : py_result unit :=
  if (List.length data <? 2)%nat then Ok tt
  else
    mu <- mean data ;;
    all_terms (square_term mu) data.

(** Lines 226-258 of [analyze_local]: the result from the two averages. *)
Definition analyze_local_result (avg_attention avg_meditation : Q) : analysis_result :=
  let a := PyStr.str_Z (py_int avg_attention) in
  let m := PyStr.str_Z (py_int avg_meditation) in
  let '(mental_state, analysis, recommendation) :=
    if gt avg_attention 70 && lt avg_meditation 40 then
      ("Stressed",
       "Your attention is very high (" ++ a ++ "%) while meditation is low (" ++ m
       ++ "%). This indicates mental stress or intense focus without relaxation. Your mind is working hard but needs rest.",
       "Take a 5-10 minute break. Try deep breathing: inhale for 4 seconds, hold for 4, exhale for 4. This reduces stress while maintaining alertness.")
    else if lt avg_attention 40 && gt avg_meditation 70 then
      ("Relaxed",
       "High meditation (" ++ m ++ "%) with lower attention (" ++ a
       ++ "%). You're in a deeply relaxed, calm state - perfect for stress relief and mindfulness.",
       "Great relaxation! To shift toward focus, gently increase activity. To maintain calm, continue with mindful breathing or meditation.")
    else if gt avg_attention 60 && gt avg_meditation 60 then
      ("Focused",
       "Excellent balance! Both attention (" ++ a ++ "%) and meditation (" ++ m
       ++ "%) are high. This is the optimal 'flow state' - focused yet relaxed.",
       "You're in peak mental performance! Maintain this by staying on task. Take 5-minute breaks every 25-30 minutes to sustain flow.")
    else if lt avg_attention 30 && lt avg_meditation 30 then
      ("Tired",
       "Both attention (" ++ a ++ "%) and meditation (" ++ m
       ++ "%) are low, indicating mental fatigue. Your brain needs rest or stimulation.",
       "Take a 15-20 minute power nap, get fresh air, or do light exercise. Stay hydrated and eat a healthy snack to boost energy.")
    else
      ("Neutral",
       "Balanced neutral state. Attention: " ++ a ++ "%, Meditation: " ++ m
       ++ "%. Neither highly focused nor deeply relaxed - a flexible middle ground.",
       "You can shift toward focus (tackle a challenging task) or relaxation (take a mindful break) as needed. Stay flexible!")
  in
  let stress_level := calculate_stress_level avg_attention avg_meditation in
  mk_result mental_state analysis recommendation stress_level.

(** [analyze_local]: lines 220-224, then [analyze_local_result].  The
    argument of [calculate_variance] is the attention series, whose list
    of ints [as_int_list] gives back. *)
Definition analyze_local (attention_history meditation_history blink_history : json)
  : py_result analysis_result :=
  avg_attention <- series_mean attention_history ;;
  avg_meditation <- series_mean meditation_history ;;
  avg_blink <- blink_mean blink_history ;;
  att_variance <- (xs <- as_int_list attention_history ;; calculate_variance xs) ;;
  Ok (analyze_local_result avg_attention avg_meditation).

(** [analyze_local_simple] *)
Definition analyze_local_simple (avg_attention avg_meditation avg_blink : Q)
  : analysis_result :=
  let '(mental_state, analysis, recommendation) :=
    if gt avg_attention 70 && lt avg_meditation 40 then
      ("Stressed", "High attention, low meditation indicates stress.",
       "Take a break and practice deep breathing.")
    else if lt avg_attention 40 && gt avg_meditation 70 then
      ("Relaxed", "High meditation shows a relaxed state.",
       "Maintain this calm or gently increase focus.")
    else if gt avg_attention 60 && gt avg_meditation 60 then
      ("Focused", "Balanced high levels - optimal flow state.",
       "Keep going! Take breaks every 25-30 minutes.")
    else if lt avg_attention 30 && lt avg_meditation 30 then
      ("Tired", "Low levels indicate fatigue.", "Rest or light exercise needed.")
    else
      ("Neutral", "Balanced neutral state.", "Shift to focus or relaxation as needed.")
  in
  let stress_level := calculate_stress_level avg_attention avg_meditation in
  mk_result mental_state analysis recommendation stress_level.

(** The two [except] blocks that fall back to [analyze_local_simple]
    (lines 167-170 of [analyze_with_groq], lines 74-77 of [analyze_eeg]):
    they recompute the three averages, which may raise again. *)
Definition local_fallback (attention_history meditation_history blink_history : json)
  : py_result analysis_result :=
  avg_att <- series_mean attention_history ;;
  avg_med <- series_mean meditation_history ;;
  avg_blink <- blink_mean blink_history ;;
  Ok (analyze_local_simple avg_att avg_med avg_blink).

(** The seven labels of the code's prompt (Stressed/Relaxed/Happy/Sad/
    Focused/Tired/Neutral). *)
Definition canonical_labels : list string :=
  ["Stressed"; "Relaxed"; "Happy"; "Sad"; "Focused"; "Tired"; "Neutral"].

Definition is_canonical (s : string) : bool :=
  existsb (String.eqb s) canonical_labels.

(** ** Offline FAQ responder *)

Definition greeting_answer : string :=
  "Hello! I'm your EEG assistant. I can help you understand brainwaves, stress levels, focus, and how to use this app. What would you like to know?".

Definition any_in (words : list string) (q : string) : bool :=
  existsb (fun w => PyStr.contains w q) words.

(** [answer_local] on a string. *)
Definition answer_local (question : string) : string :=
  let question := PyStr.lower question in
  if any_in ["hi"; "hello"; "hey"] question then greeting_answer
  else if any_in ["attention"; "focus"] question then
    "Attention measures your mental focus (0-100%). Higher values = better concentration. It reflects beta wave activity. Track it to improve focus during work or study!"
  else if any_in ["meditation"; "calm"; "relax"] question then
    "Meditation measures mental calmness (0-100%). Higher = more relaxed. Reflects alpha waves. Great for stress monitoring and mindfulness practice!"
  else if any_in ["stress"; "stressed"] question then
    "Stress is calculated from attention/meditation balance. High attention + low meditation = high stress. Reduce it with breaks, breathing exercises, and regular monitoring!"
  else if any_in ["blink"; "eye"] question then
    "Blink strength (0-100%) measures eye blink intensity. Use strong blinks for control commands - a natural way to interact with devices!"
  else if any_in ["how"; "use"; "work"] question then
    "Wear the EEG headset and this app reads your brainwaves in real-time. It analyzes mental state, tracks focus, monitors stress, and lets you control devices. Explore the features!"
  else if any_in ["improve"; "better"] question then
    "To improve: Practice 10-15 mins daily, stay relaxed, recalibrate weekly, work in quiet spaces, stay hydrated. Your brain gets stronger with practice!"
  else
    "That's interesting! I can tell you about: attention, meditation, stress, blinks, app usage, or mental training. What would you like to know?".

(** [answer_local(question)] on a JSON value: [question.lower()] raises
    [AttributeError] unless it is a string. *)
Definition answer_local_json (question : json) : py_result string :=
  match question with
  | JStr s => Ok (answer_local s)
  | _ => Err AttributeError
  end.

(** ** The Groq gateway *)

(** [v[k]] for a string key. *)
Definition get_key (k : string) (v : json) : py_result json :=
  match v with
  | JObj kvs => match assoc_last k kvs with Some x => Ok x | None => Err KeyError end
  | _ => Err TypeError
  end.

(** [v[0]] *)
Definition get_index0 (v : json) : py_result json :=
  match v with
  | JArr (x :: _) => Ok x
  | JArr [] => Err IndexError
  | JObj _ => Err KeyError
  | JStr (String c _) => Ok (JStr (String c EmptyString))
  | JStr EmptyString => Err IndexError
  | _ => Err TypeError
  end.

(** What the one [requests.post] of [call_groq_api] produces: a transport
    failure, or a reply with its status, its text and its body parsed as
    JSON ([None] when the body is not valid JSON). *)
Inductive http_outcome :=
  | TransportFailure
  | HttpReply (status : Z) (text : string) (body : option json).

(** [call_groq_api] *)
Definition call_groq_api (http : http_outcome) : py_result json :=
  match http with
  | TransportFailure => Err RequestException
  | HttpReply status text body =>
      if negb (status =? 200) then Err (GroqAPIError status text)
      else match body with
           | None => Err JSONDecodeError
           | Some result =>
               c <- get_key "choices" result ;;
               c0 <- get_index0 c ;;
               msg <- get_key "message" c0 ;;
               get_key "content" msg
           end
  end.

(** A method of [str] called on a JSON value: anything else raises. *)
Definition as_str (v : json) : py_result string :=
  match v with
  | JStr s => Ok s
  | _ => Err AttributeError
  end.

(** ** The AI response parser of [analyze_with_groq] *)

(** One turn of [for line in lines:] over (mental_state, analysis,
    recommendation). *)
Definition parse_line (st : string * string * string) (line : string)
  : string * string * string :=
  let '(mental_state, analysis, recommendation) := st in
  let line := PyStr.strip line in
  if PyStr.startswith "Mental State:" line then
    (PyStr.strip (PyStr.replace_empty "Mental State:" line), analysis, recommendation)
  else if PyStr.startswith "Analysis:" line then
    (mental_state, PyStr.strip (PyStr.replace_empty "Analysis:" line), recommendation)
  else if PyStr.startswith "Recommendation:" line then
    (mental_state, analysis, PyStr.strip (PyStr.replace_empty "Recommendation:" line))
  else st.

Definition default_recommendation : string :=
  "Continue monitoring your brainwaves regularly.".

(** Lines 134-152: the parse of the reply text [response] into
    (mental_state, analysis, recommendation). *)
Definition parse_groq_response (response : string) : string * string * string :=
  let lines := PyStr.split_nl (PyStr.strip response) in
  let '(mental_state, analysis, recommendation) :=
    fold_left parse_line lines ("Neutral", "", "") in
  let analysis := if String.eqb analysis "" then PyStr.slice_to 250 response else analysis in
  let recommendation :=
    if String.eqb recommendation "" then default_recommendation else recommendation in
  (mental_state, analysis, recommendation).

(** The [try] block of [analyze_with_groq] (lines 109-161).  Building the
    prompt (lines 113-129) cannot raise once the averages exist: the two
    series are then non-empty lists of numbers, so [min], [max] and [int]
    succeed; the prompt's text is not modelled since the reply is an input
    of the model. *)
Definition groq_try (attention_history meditation_history blink_history : json)
  (http : http_outcome) : py_result analysis_result :=
  avg_attention <- series_mean attention_history ;;
  avg_meditation <- series_mean meditation_history ;;
  avg_blink <- blink_mean blink_history ;;
  v <- call_groq_api http ;;
  response <- as_str v ;;
  let '(mental_state, analysis, recommendation) := parse_groq_response response in
  let stress_level := calculate_stress_level avg_attention avg_meditation in
  Ok (mk_result mental_state analysis recommendation stress_level).

(** [analyze_with_groq]: an [Err] of the [try] block runs the [except]
    block, whose own exception escapes. *)
Definition analyze_with_groq (attention_history meditation_history blink_history : json)
  (http : http_outcome) : py_result analysis_result :=
  match groq_try attention_history meditation_history blink_history http with
  | Ok r => Ok r
  | Err _ => local_fallback attention_history meditation_history blink_history
  end.

(** [answer_with_groq]: the provider's [content] is returned as it is;
    the [except] block calls [answer_local]. *)
Definition answer_with_groq (http : http_outcome) (question : json) : py_result json :=
  match call_groq_api http with
  | Ok v => Ok v
  | Err _ => a <- answer_local_json question ;; Ok (JStr a)
  end.

(** ** Configuration and the HTTP handlers *)

Record config := mk_config {
  USE_AI : bool;
  GROQ_API_KEY : string
}.

(** [USE_AI and GROQ_API_KEY and GROQ_API_KEY != 'gsk_free_key_placeholder'] *)
Definition ai_configured (cfg : config) : bool :=
  USE_AI cfg && negb (String.eqb (GROQ_API_KEY cfg) "")
  && negb (String.eqb (GROQ_API_KEY cfg) "gsk_free_key_placeholder").

Inductive response (A : Type) :=
  | Resp400 (error : string)
  | Resp500                     (* an exception escaped the view *)
  | Resp200 (payload : A).
Arguments Resp400 {A} error.
Arguments Resp500 {A}.
Arguments Resp200 {A} payload.

(** [analyze_eeg] on the body [body] ([None]: [request.json] raises).
    An exception raised before [attention_history] is assigned (by
    [request.json], or by [data.get] on a JSON value that is not an
    object) sends the [except] block to read the unassigned
    [attention_history]: [UnboundLocalError], a 500.  An exception raised
    by either classifier runs the [except] block's fallback. *)
Definition analyze_eeg (cfg : config) (http : http_outcome) (body : option json)
  : response analysis_result :=
  match body with
  | None => Resp500
  | Some data =>
      if negb (py_truthy data) then Resp400 "No data provided"
      else match data with
      | JObj kvs =>
          let attention_history := get_or "attentionHistory" kvs (JArr []) in
          let meditation_history := get_or "meditationHistory" kvs (JArr []) in
          let blink_history := get_or "blinkHistory" kvs (JArr []) in
          if negb (py_truthy attention_history) || negb (py_truthy meditation_history) then
            Resp400 "Missing EEG data"
          else
            let result :=
              if ai_configured cfg
              then analyze_with_groq attention_history meditation_history blink_history http
              else analyze_local attention_history meditation_history blink_history in
            match result with
            | Ok r => Resp200 r
            | Err _ =>
                match local_fallback attention_history meditation_history blink_history with
                | Ok r => Resp200 r
                | Err _ => Resp500
                end
            end
      | _ => Resp500
      end
  end.

(** [ask_question] on the body [body] ([None]: [request.json] raises);
    the payload is the value of the [answer] key, a JSON value since the
    provider's [content] is passed through as it is.  As in [analyze_eeg],
    an exception raised before [question] is assigned makes the [except]
    block raise [UnboundLocalError]. *)
Definition ask_question (cfg : config) (http : http_outcome) (body : option json)
  : response json :=
  match body with
  | None => Resp500
  | Some data =>
      if negb (py_truthy data) then Resp400 "No data provided"
      else match data with
      | JObj kvs =>
          let question := get_or "question" kvs (JStr "") in
          if negb (py_truthy question) then Resp400 "No question provided"
          else
            let answer :=
              if ai_configured cfg then answer_with_groq http question
              else (a <- answer_local_json question ;; Ok (JStr a)) in
            match answer with
            | Ok a => Resp200 a
            | Err _ =>
                match answer_local_json question with
                | Ok a => Resp200 (JStr a)
                | Err _ => Resp500
                end
            end
      | _ => Resp500
      end
  end.

(** [health]: the JSON object of [/health]. *)
Record health_info := mk_health {
  status : string;
  ai_configured_flag : bool;
  ai_enabled_flag : bool;
  ai_provider : string
}.

(** ['ai_configured': bool(GROQ_API_KEY and GROQ_API_KEY != 'gsk_free_key_placeholder')] *)
Definition health (cfg : config) : health_info :=
  mk_health "healthy"
    (negb (String.eqb (GROQ_API_KEY cfg) "")
     && negb (String.eqb (GROQ_API_KEY cfg) "gsk_free_key_placeholder"))
    (USE_AI cfg) "Groq".

(** The trimmed reply lines that carry the [Mental State:], [Analysis:]
    and [Recommendation:] prefixes. *)
Definition mental_state_lines (lines : list string) : list string :=
  filter (PyStr.startswith "Mental State:") (map PyStr.strip lines).

Definition analysis_lines (lines : list string) : list string :=
  filter (PyStr.startswith "Analysis:") (map PyStr.strip lines).

Definition recommendation_lines (lines : list string) : list string :=
  filter (PyStr.startswith "Recommendation:") (map PyStr.strip lines).

(** The three-line reply format the analysis prompt asks the model for
    (lines 125-127 of the prompt). *)
Definition format_reply (state analysis_text recommendation_text : string) : string :=
  ("Mental State: " ++ state) ++ String PyStr.newline
  (("Analysis: " ++ analysis_text) ++ String PyStr.newline
   ("Recommendation: " ++ recommendation_text)).

(** A field value the format can carry: non-empty, already trimmed, on one
    line. *)
Definition field_ok (x : string) : Prop :=
  x <> "" /\ PyStr.strip x = x
  /\ existsb (Ascii.eqb PyStr.newline) (list_ascii_of_string x) = false.

(** A 200 reply of the Groq API whose [content] is [s]. *)
Definition groq_reply (s : string) : http_outcome :=
  HttpReply 200 "{}"
    (Some (JObj [("choices", JArr [JObj [("message", JObj [("content", JStr s)])]])])).

(** The fields of a request body with the three series. *)
Definition eeg_fields (att med blink : json) : list (string * json) :=
  [("attentionHistory", att); ("meditationHistory", med); ("blinkHistory", blink)].

(** A JSON list of samples. *)
Definition samples (xs : list Z) : json := JArr (map JNum xs).

(** * Properties *)

Ltac case_ifs :=
  repeat match goal with
         | |- context [if ?b then _ else _] => destruct b
         end.

(** ** Threshold comparisons *)

Lemma gt_spec (q : Q) (k : Z) : gt q k = true <-> (inject_Z k < q)%Q.
Proof.
  unfold gt. rewrite negb_true_iff. split; intro H.
  - apply Qnot_le_lt. intro Hle. apply Qle_bool_iff in Hle. congruence.
  - destruct (Qle_bool q (inject_Z k)) eqn:E; [|reflexivity].
    apply Qle_bool_iff in E. exfalso. apply (Qlt_not_le _ _ H E).
Qed.

Lemma lt_spec (q : Q) (k : Z) : lt q k = true <-> (q < inject_Z k)%Q.
Proof.
  unfold lt. rewrite negb_true_iff. split; intro H.
  - apply Qnot_le_lt. intro Hle. apply Qle_bool_iff in Hle. congruence.
  - destruct (Qle_bool (inject_Z k) q) eqn:E; [|reflexivity].
    apply Qle_bool_iff in E. exfalso. apply (Qlt_not_le _ _ H E).
Qed.

Ltac destruct_thresholds :=
  repeat match goal with
         | |- context [gt ?q ?k] => destruct (gt q k) eqn:?
         | |- context [lt ?q ?k] => destruct (lt q k) eqn:?
         end;
  repeat match goal with
         | H : gt _ _ = true |- _ => apply gt_spec in H
         | H : lt _ _ = true |- _ => apply lt_spec in H
         | H : gt ?q ?k = false |- _ =>
             assert (~ (inject_Z k < q)%Q) by (rewrite <- gt_spec; congruence); clear H
         | H : lt ?q ?k = false |- _ =>
             assert (~ (q < inject_Z k)%Q) by (rewrite <- lt_spec; congruence); clear H
         end;
  unfold inject_Z in *.

(** ** The classifiers *)

Lemma calculate_stress_level_values (a m : Q) :
  In (calculate_stress_level a m) [75; 25; 30; 50].
Proof. unfold calculate_stress_level. case_ifs; simpl; tauto. Qed.

Lemma stress_values_range (x : Z) :
  In x [75; 25; 30; 50] -> 0 <= x <= 100 /\ In x [75; 25; 30; 50].
Proof. intro H. split; [|exact H]. simpl in H. intuition (subst; lia). Qed.

Lemma analyze_local_simple_canonical (a m b : Q) :
  is_canonical (mentalState (analyze_local_simple a m b)) = true.
Proof. unfold analyze_local_simple. case_ifs; reflexivity. Qed.

Lemma analyze_local_result_canonical (a m : Q) :
  is_canonical (mentalState (analyze_local_result a m)) = true.
Proof. unfold analyze_local_result. case_ifs; reflexivity. Qed.

Lemma analyze_local_result_stress (a m : Q) :
  stressLevel (analyze_local_result a m) = calculate_stress_level a m.
Proof. unfold analyze_local_result. case_ifs; reflexivity. Qed.

Lemma analyze_local_simple_stress (a m b : Q) :
  stressLevel (analyze_local_simple a m b) = calculate_stress_level a m.
Proof. unfold analyze_local_simple. case_ifs; reflexivity. Qed.

(** ** Averages and the request body *)

(** An average that exists is the average of a non-empty list: the series
    is truthy. *)
Lemma series_mean_truthy (v : json) (a : Q) :
  series_mean v = Ok a -> py_truthy v = true.
Proof.
  intro H.
  destruct v as [|b|z|[|c s]|[|x xs]|[|kv kvs]]; try reflexivity;
    cbv in H; discriminate H.
Qed.

Lemma get_or_truthy (k : string) (kvs : list (string * json)) :
  py_truthy (get_or k kvs (JArr [])) = true -> py_truthy (JObj kvs) = true.
Proof. destruct kvs as [|kv kvs]; [intro H; cbv in H; discriminate H | reflexivity]. Qed.

(** [analyze_eeg] on an object whose attention and meditation averages
    exist: the validation passes. *)
Lemma analyze_eeg_valid (cfg : config) (http : http_outcome) (kvs : list (string * json))
  (a m : Q) :
  series_mean (get_or "attentionHistory" kvs (JArr [])) = Ok a ->
  series_mean (get_or "meditationHistory" kvs (JArr [])) = Ok m ->
  analyze_eeg cfg http (Some (JObj kvs))
  = match (if ai_configured cfg
           then analyze_with_groq (get_or "attentionHistory" kvs (JArr []))
                  (get_or "meditationHistory" kvs (JArr []))
                  (get_or "blinkHistory" kvs (JArr [])) http
           else analyze_local (get_or "attentionHistory" kvs (JArr []))
                  (get_or "meditationHistory" kvs (JArr []))
                  (get_or "blinkHistory" kvs (JArr []))) with
    | Ok r => Resp200 r
    | Err _ =>
        match local_fallback (get_or "attentionHistory" kvs (JArr []))
                (get_or "meditationHistory" kvs (JArr []))
                (get_or "blinkHistory" kvs (JArr [])) with
        | Ok r => Resp200 r
        | Err _ => Resp500
        end
    end.
Proof.
  intros Ha Hm.
  apply series_mean_truthy in Ha. apply series_mean_truthy in Hm.
  pose proof (get_or_truthy _ _ Ha) as Hobj.
  unfold analyze_eeg. cbv beta iota zeta.
  rewrite Hobj, Ha, Hm. reflexivity.
Qed.

Lemma analyze_local_ok (att med blink : json) (r : analysis_result) :
  analyze_local att med blink = Ok r ->
  exists a m b, series_mean att = Ok a /\ series_mean med = Ok m /\ blink_mean blink = Ok b
    /\ (xs <- as_int_list att ;; calculate_variance xs) = Ok tt
    /\ r = analyze_local_result a m.
Proof.
  unfold analyze_local. intro H.
  destruct (series_mean att) as [a|e] eqn:Ha; cbn [bind] in H; [|discriminate H].
  destruct (series_mean med) as [m|e] eqn:Hm; cbn [bind] in H; [|discriminate H].
  destruct (blink_mean blink) as [b|e] eqn:Hb; cbn [bind] in H; [|discriminate H].
  destruct (xs <- as_int_list att ;; calculate_variance xs) as [[]|e] eqn:Hv;
    cbn [bind] in H; [|discriminate H].
  injection H as <-. exists a, m, b. repeat split; reflexivity.
Qed.

Lemma analyze_local_eq (att med blink : json) (a m : Q) (r : analysis_result) :
  series_mean att = Ok a -> series_mean med = Ok m ->
  analyze_local att med blink = Ok r -> r = analyze_local_result a m.
Proof.
  intros Ha Hm H.
  destruct (analyze_local_ok _ _ _ _ H) as (a' & m' & b' & Ha' & Hm' & _ & _ & ->).
  congruence.
Qed.

Lemma local_fallback_ok (att med blink : json) (r : analysis_result) :
  local_fallback att med blink = Ok r ->
  exists a m b, series_mean att = Ok a /\ series_mean med = Ok m /\ blink_mean blink = Ok b
    /\ r = analyze_local_simple a m b.
Proof.
  unfold local_fallback. intro H.
  destruct (series_mean att) as [a|e] eqn:Ha; cbn [bind] in H; [|discriminate H].
  destruct (series_mean med) as [m|e] eqn:Hm; cbn [bind] in H; [|discriminate H].
  destruct (blink_mean blink) as [b|e] eqn:Hb; cbn [bind] in H; [|discriminate H].
  injection H as <-. exists a, m, b. repeat split; reflexivity.
Qed.

Lemma local_fallback_eq (att med blink : json) (a m b : Q) :
  series_mean att = Ok a -> series_mean med = Ok m -> blink_mean blink = Ok b ->
  local_fallback att med blink = Ok (analyze_local_simple a m b).
Proof. intros Ha Hm Hb. unfold local_fallback. rewrite Ha, Hm, Hb. reflexivity. Qed.

(** ** The AI path *)

Lemma analyze_with_groq_reply (att med blink : json) (http : http_outcome) (a m b : Q)
  (s : string) :
  series_mean att = Ok a -> series_mean med = Ok m -> blink_mean blink = Ok b ->
  call_groq_api http = Ok (JStr s) ->
  analyze_with_groq att med blink http
  = Ok (let '(ms, an, rc) := parse_groq_response s in
        mk_result ms an rc (calculate_stress_level a m)).
Proof.
  intros Ha Hm Hb C. unfold analyze_with_groq, groq_try.
  rewrite Ha, Hm, Hb, C. cbn [bind as_str].
  destruct (parse_groq_response s) as [[ms an] rc]. reflexivity.
Qed.

Lemma analyze_with_groq_no_string (att med blink : json) (http : http_outcome) (a m b : Q) :
  (forall s, call_groq_api http <> Ok (JStr s)) ->
  series_mean att = Ok a -> series_mean med = Ok m -> blink_mean blink = Ok b ->
  analyze_with_groq att med blink http = Ok (analyze_local_simple a m b).
Proof.
  intros Hnot Ha Hm Hb. unfold analyze_with_groq, groq_try.
  rewrite Ha, Hm, Hb. cbn [bind].
  destruct (call_groq_api http) as [v|e] eqn:C; cbn [bind].
  - destruct v as [| | |s| |]; cbn [as_str bind];
      try (apply local_fallback_eq; assumption).
    exfalso. exact (Hnot s eq_refl).
  - apply local_fallback_eq; assumption.
Qed.

Lemma analyze_with_groq_err (att med blink : json) (http : http_outcome) (e : py_exc) :
  analyze_with_groq att med blink http = Err e -> local_fallback att med blink = Err e.
Proof.
  unfold analyze_with_groq.
  destruct (groq_try att med blink http); [discriminate | exact (fun H => H)].
Qed.

Lemma analyze_with_groq_ok (att med blink : json) (http : http_outcome) (r : analysis_result) :
  analyze_with_groq att med blink http = Ok r ->
  exists a m b, series_mean att = Ok a /\ series_mean med = Ok m /\ blink_mean blink = Ok b
    /\ ((exists s, call_groq_api http = Ok (JStr s)
          /\ r = let '(ms, an, rc) := parse_groq_response s in
                 mk_result ms an rc (calculate_stress_level a m))
        \/ ((forall s, call_groq_api http <> Ok (JStr s)) /\ r = analyze_local_simple a m b)).
Proof.
  intro H.
  destruct (groq_try att med blink http) as [r0|e] eqn:G.
  - unfold analyze_with_groq in H. rewrite G in H. injection H as <-.
    unfold groq_try in G.
    destruct (series_mean att) as [a|e] eqn:Ha; cbn [bind] in G; [|discriminate G].
    destruct (series_mean med) as [m|e] eqn:Hm; cbn [bind] in G; [|discriminate G].
    destruct (blink_mean blink) as [b|e] eqn:Hb; cbn [bind] in G; [|discriminate G].
    destruct (call_groq_api http) as [v|e] eqn:C; cbn [bind] in G; [|discriminate G].
    destruct v as [| | |s| |]; cbn [as_str bind] in G; try discriminate G.
    exists a, m, b. repeat split; try reflexivity. left. exists s. split; [reflexivity|].
    destruct (parse_groq_response s) as [[ms an] rc]. injection G as <-. reflexivity.
  - unfold analyze_with_groq in H. rewrite G in H.
    destruct (local_fallback_ok _ _ _ _ H) as (a & m & b & Ha & Hm & Hb & ->).
    exists a, m, b. repeat split; try assumption. right. split; [|reflexivity].
    intros s C. unfold groq_try in G. rewrite Ha, Hm, Hb, C in G.
    cbn [bind as_str] in G. destruct (parse_groq_response s) as [[ms an] rc].
    discriminate G.
Qed.

(** The ways [/api/analyze] can answer 200: on an object body, with the
    AI attempt, with [analyze_local], or with the handler's fallback after
    [analyze_local] raised (an exception of [analyze_with_groq] is one its
    own fallback raised, and the handler's fallback raises it again). *)
Lemma analyze_eeg_200 (cfg : config) (http : http_outcome) (body : option json)
  (r : analysis_result) :
  analyze_eeg cfg http body = Resp200 r ->
  exists kvs, body = Some (JObj kvs) /\
    let att := get_or "attentionHistory" kvs (JArr []) in
    let med := get_or "meditationHistory" kvs (JArr []) in
    let blink := get_or "blinkHistory" kvs (JArr []) in
    ((ai_configured cfg = true /\ analyze_with_groq att med blink http = Ok r)
     \/ (ai_configured cfg = false
         /\ (analyze_local att med blink = Ok r
             \/ ((exists e, analyze_local att med blink = Err e)
                 /\ local_fallback att med blink = Ok r)))).
Proof.
  intro H. destruct body as [data|]; [|discriminate H].
  unfold analyze_eeg in H. cbv beta iota zeta in H.
  destruct (negb (py_truthy data)); [discriminate H|].
  destruct data as [| | | | |kvs]; try discriminate H.
  exists kvs. split; [reflexivity|]. cbv zeta.
  destruct (negb (py_truthy (get_or "attentionHistory" kvs (JArr [])))
            || negb (py_truthy (get_or "meditationHistory" kvs (JArr []))));
    [discriminate H|].
  destruct (ai_configured cfg) eqn:Hai.
  - left. split; [reflexivity|].
    destruct (analyze_with_groq (get_or "attentionHistory" kvs (JArr []))
                (get_or "meditationHistory" kvs (JArr []))
                (get_or "blinkHistory" kvs (JArr [])) http) as [r0|e] eqn:A.
    + injection H as <-. reflexivity.
    + rewrite (analyze_with_groq_err _ _ _ _ _ A) in H. discriminate H.
  - right. split; [reflexivity|].
    destruct (analyze_local (get_or "attentionHistory" kvs (JArr []))
                (get_or "meditationHistory" kvs (JArr []))
                (get_or "blinkHistory" kvs (JArr []))) as [r0|e] eqn:A.
    + left. injection H as <-. reflexivity.
    + right. split; [exists e; reflexivity|].
      destruct (local_fallback (get_or "attentionHistory" kvs (JArr []))
                  (get_or "meditationHistory" kvs (JArr []))
                  (get_or "blinkHistory" kvs (JArr []))) as [r1|e1];
        [injection H as <-; reflexivity | discriminate H].
Qed.


(** ** The AI response parser *)

Lemma startswith_recommendation_excl (s : string) :
  PyStr.startswith "Recommendation:" s = true ->
  PyStr.startswith "Mental State:" s = false /\ PyStr.startswith "Analysis:" s = false.
Proof.
  destruct s as [|c s]; [discriminate|]. unfold PyStr.startswith.
  destruct c as [[] [] [] [] [] [] [] []]; cbn;
    first [discriminate | intros _; split; reflexivity].
Qed.

Lemma startswith_analysis_excl (s : string) :
  PyStr.startswith "Analysis:" s = true -> PyStr.startswith "Mental State:" s = false.
Proof.
  destruct s as [|c s]; [discriminate|]. unfold PyStr.startswith.
  destruct c as [[] [] [] [] [] [] [] []]; cbn;
    first [discriminate | intros _; reflexivity].
Qed.

Lemma fold_parse_line_mental_state (lines : list string) (st : string * string * string) :
  fst (fst (fold_left parse_line lines st))
  = match rev (mental_state_lines lines) with
    | [] => fst (fst st)
    | x :: _ => PyStr.strip (PyStr.replace_empty "Mental State:" x)
    end.
Proof.
  revert st. induction lines as [|l lines IH]; intro st; [reflexivity|].
  simpl fold_left. rewrite IH. unfold mental_state_lines. simpl map.
  simpl filter.
  destruct st as [[ms an] rc].
  destruct (PyStr.startswith "Mental State:" (PyStr.strip l)) eqn:Hms;
    unfold parse_line; rewrite Hms.
  - simpl rev. destruct (rev (filter (PyStr.startswith "Mental State:")
                                    (map PyStr.strip lines))); reflexivity.
  - destruct (rev (filter (PyStr.startswith "Mental State:")
                          (map PyStr.strip lines))); [|reflexivity].
    simpl. case_ifs; reflexivity.
Qed.

Lemma fold_parse_line_recommendation (lines : list string) (st : string * string * string) :
  snd (fold_left parse_line lines st)
  = match rev (recommendation_lines lines) with
    | [] => snd st
    | x :: _ => PyStr.strip (PyStr.replace_empty "Recommendation:" x)
    end.
Proof.
  revert st. induction lines as [|l lines IH]; intro st; [reflexivity|].
  simpl fold_left. rewrite IH. unfold recommendation_lines. simpl map.
  simpl filter.
  destruct st as [[ms an] rc].
  destruct (PyStr.startswith "Recommendation:" (PyStr.strip l)) eqn:Hr.
  - destruct (startswith_recommendation_excl _ Hr) as [N1 N2].
    unfold parse_line. rewrite N1, N2, Hr.
    simpl rev. destruct (rev (filter (PyStr.startswith "Recommendation:")
                                    (map PyStr.strip lines))); reflexivity.
  - unfold parse_line. rewrite Hr.
    destruct (rev (filter (PyStr.startswith "Recommendation:")
                          (map PyStr.strip lines))); [|reflexivity].
    simpl. case_ifs; reflexivity.
Qed.

Lemma fold_parse_line_analysis (lines : list string) (st : string * string * string) :
  snd (fst (fold_left parse_line lines st))
  = match rev (analysis_lines lines) with
    | [] => snd (fst st)
    | x :: _ => PyStr.strip (PyStr.replace_empty "Analysis:" x)
    end.
Proof.
  revert st. induction lines as [|l lines IH]; intro st; [reflexivity|].
  simpl fold_left. rewrite IH. unfold analysis_lines. simpl map.
  simpl filter.
  destruct st as [[ms an] rc].
  destruct (PyStr.startswith "Analysis:" (PyStr.strip l)) eqn:Ha.
  - pose proof (startswith_analysis_excl _ Ha) as N1.
    unfold parse_line. rewrite N1, Ha.
    simpl rev. destruct (rev (filter (PyStr.startswith "Analysis:")
                                    (map PyStr.strip lines))); reflexivity.
  - unfold parse_line. rewrite Ha.
    destruct (rev (filter (PyStr.startswith "Analysis:")
                          (map PyStr.strip lines))); [|reflexivity].
    simpl. case_ifs; reflexivity.
Qed.

Lemma fold_parse_line_no_analysis (lines : list string) (st : string * string * string) :
  analysis_lines lines = [] ->
  snd (fst (fold_left parse_line lines st)) = snd (fst st).
Proof.
  intro H. rewrite fold_parse_line_analysis, H. reflexivity.
Qed.

Lemma substring_0_length (n : nat) (s : string) :
  (String.length (substring 0 n s) <= n)%nat.
Proof.
  revert s. induction n as [|n IH]; intro s; destruct s as [|c s]; simpl; try lia.
  specialize (IH s). lia.
Qed.

(** ** Claims *)




(** C2: [calculate_stress_level] depends on the two averages only and
    returns 75, 25, 30 or 50 by the three threshold tests, in that order. *)
Theorem calculate_stress_level_spec (a m : Q) :
  ((70 < a)%Q /\ (m < 40)%Q -> calculate_stress_level a m = 75)
  /\ (~ ((70 < a)%Q /\ (m < 40)%Q) -> (a < 40)%Q /\ (70 < m)%Q ->
      calculate_stress_level a m = 25)
  /\ (~ ((70 < a)%Q /\ (m < 40)%Q) -> ~ ((a < 40)%Q /\ (70 < m)%Q) ->
      (60 < a)%Q /\ (60 < m)%Q -> calculate_stress_level a m = 30)
  /\ (~ ((70 < a)%Q /\ (m < 40)%Q) -> ~ ((a < 40)%Q /\ (70 < m)%Q) ->
      ~ ((60 < a)%Q /\ (60 < m)%Q) -> calculate_stress_level a m = 50).
Proof.
  unfold calculate_stress_level.
  destruct (gt a 70) eqn:G70; destruct (lt m 40) eqn:L40;
  destruct (lt a 40) eqn:LA40; destruct (gt m 70) eqn:G70m;
  destruct (gt a 60) eqn:G60; destruct (gt m 60) eqn:G60m; simpl;
  repeat match goal with
         | H : gt _ _ = true |- _ => apply gt_spec in H
         | H : lt _ _ = true |- _ => apply lt_spec in H
         | H : gt ?q ?k = false |- _ =>
             assert (~ (inject_Z k < q)%Q) by (rewrite <- gt_spec; congruence); clear H
         | H : lt ?q ?k = false |- _ =>
             assert (~ (q < inject_Z k)%Q) by (rewrite <- lt_spec; congruence); clear H
         end;
  unfold inject_Z in *;
  repeat split; intros; first [reflexivity | tauto].
Qed.

Lemma calculate_stress_level_examples :
  calculate_stress_level 80 20 = 75 /\ calculate_stress_level 20 80 = 25
  /\ calculate_stress_level 65 65 = 30 /\ calculate_stress_level 50 50 = 50.
Proof. repeat split; reflexivity. Qed.

(** C3 (as amended): every 200 answer of [/api/analyze] has a stress level
    among 75, 25, 30 and 50 (so in [0,100]); its mental state is one of
    the seven labels whenever the rule-based path produces it (AI not
    configured, or the provider call does not return a string); after a
    provider call that returns the string [s], it is the mental state the
    parser extracts from [s]. *)
Theorem analyze_result_ranges (cfg : config) (http : http_outcome)
  (body : option json) (r : analysis_result) :
  analyze_eeg cfg http body = Resp200 r ->
  (0 <= stressLevel r <= 100 /\ In (stressLevel r) [75; 25; 30; 50])
  /\ ((ai_configured cfg = false \/ forall s, call_groq_api http <> Ok (JStr s)) ->
      is_canonical (mentalState r) = true)
  /\ (forall s, ai_configured cfg = true -> call_groq_api http = Ok (JStr s) ->
      mentalState r = fst (fst (parse_groq_response s))).
Proof.
  intro H. destruct (analyze_eeg_200 _ _ _ _ H) as (kvs & _ & Hc). cbv zeta in Hc.
  destruct Hc as [[Hai Hawg] | [Hai [Hal | [_ Hlf]]]].
  - destruct (analyze_with_groq_ok _ _ _ _ _ Hawg)
      as (a & m & b & Ha & Hm & Hb & [[s [C ->]] | [Hnot ->]]).
    + destruct (parse_groq_response s) as [[ms an] rc] eqn:P.
      split; [apply stress_values_range, calculate_stress_level_values|]. split.
      * intros [Hf | Hnot]; [congruence | exfalso; exact (Hnot s C)].
      * intros s' _ C'. rewrite C in C'. injection C' as <-. rewrite P. reflexivity.
    + split; [rewrite analyze_local_simple_stress;
              apply stress_values_range, calculate_stress_level_values|].
      split; [intros _; apply analyze_local_simple_canonical|].
      intros s' _ C'. exfalso. exact (Hnot s' C').
  - destruct (analyze_local_ok _ _ _ _ Hal) as (a & m & b & _ & _ & _ & _ & ->).
    split; [rewrite analyze_local_result_stress;
            apply stress_values_range, calculate_stress_level_values|].
    split; [intros _; apply analyze_local_result_canonical|].
    intros s Hai'. congruence.
  - destruct (local_fallback_ok _ _ _ _ Hlf) as (a & m & b & _ & _ & _ & ->).
    split; [rewrite analyze_local_simple_stress;
            apply stress_values_range, calculate_stress_level_values|].
    split; [intros _; apply analyze_local_simple_canonical|].
    intros s Hai'. congruence.
Qed.

Lemma analyze_result_ranges_witness :
  analyze_eeg (mk_config false "") TransportFailure
    (Some (JObj (eeg_fields (samples [35]) (samples [35]) JNull)))
  = Resp200 (analyze_local_result 35 35)
  /\ In (stressLevel (analyze_local_result 35 35)) [75; 25; 30; 50]
  /\ is_canonical (mentalState (analyze_local_result 35 35)) = true.
Proof.
  assert (E : analyze_eeg (mk_config false "") TransportFailure
                (Some (JObj (eeg_fields (samples [35]) (samples [35]) JNull)))
              = Resp200 (analyze_local_result 35 35)) by (vm_compute; reflexivity).
  split; [exact E|].
  destruct (analyze_result_ranges _ _ _ _ E) as [[_ Hs] [Hc _]].
  split; [exact Hs|]. apply Hc. left. reflexivity.
Defined.

(** C3 fails: a successful AI reply [Mental State: Anxious] gives the
    label [Anxious], which is none of the seven. *)
Lemma analyze_noncanonical_state :
  analyze_eeg (mk_config true "gsk_real_key") (groq_reply "Mental State: Anxious")
    (Some (JObj (eeg_fields (samples [80]) (samples [20]) JNull)))
  = Resp200 (mk_result "Anxious" "Mental State: Anxious" default_recommendation 75)
  /\ is_canonical "Anxious" = false.
Proof. split; vm_compute; reflexivity. Qed.

(** C4 (as amended): the parser's mental state comes from the last
    trimmed line starting with [Mental State:], with every occurrence of
    [Mental State:] removed and the rest trimmed, and is [Neutral] when
    there is no such line; it is not normalised to a label. *)
Theorem parse_groq_mental_state (response : string) :
  fst (fst (parse_groq_response response))
  = match rev (mental_state_lines (PyStr.split_nl (PyStr.strip response))) with
    | [] => "Neutral"
    | x :: _ => PyStr.strip (PyStr.replace_empty "Mental State:" x)
    end.
Proof.
  unfold parse_groq_response.
  pose proof (fold_parse_line_mental_state (PyStr.split_nl (PyStr.strip response))
                ("Neutral", "", "")) as H.
  destruct (fold_left parse_line (PyStr.split_nl (PyStr.strip response))
              ("Neutral", "", "")) as [[ms an] rc].
  simpl in H |- *. exact H.
Qed.

(** C4 fails: a [Mental State:] line that names no label is kept as it
    is, with no keyword scan of the reply. *)
Lemma parse_mental_state_not_normalised :
  fst (fst (parse_groq_response "Mental State: feeling stressed")) = "feeling stressed"
  /\ is_canonical "feeling stressed" = false.
Proof. split; vm_compute; reflexivity. Qed.

(** C5 (as amended): whenever [analyze_local] returns, its stress level is
    75, 25, 30 or 50; when none of the four threshold branches matches,
    the result is [Neutral] with stress level 50, whatever the spread of
    the series: no range or variance branch exists and the stress level 85
    is never produced. *)
Theorem analyze_local_no_branch_neutral (att med blink : json) (a m : Q)
  (r : analysis_result) :
  series_mean att = Ok a -> series_mean med = Ok m ->
  analyze_local att med blink = Ok r ->
  In (stressLevel r) [75; 25; 30; 50]
  /\ (~ ((70 < a)%Q /\ (m < 40)%Q) ->
      ~ ((a < 40)%Q /\ (70 < m)%Q) ->
      ~ ((60 < a)%Q /\ (60 < m)%Q) ->
      ~ ((a < 30)%Q /\ (m < 30)%Q) ->
      mentalState r = "Neutral" /\ stressLevel r = 50).
Proof.
  intros Ha Hm H. rewrite (analyze_local_eq _ _ _ _ _ _ Ha Hm H).
  split; [rewrite analyze_local_result_stress; apply calculate_stress_level_values|].
  intros H1 H2 H3 H4.
  unfold analyze_local_result, calculate_stress_level. cbv zeta.
  destruct_thresholds; simpl; first [split; reflexivity | tauto].
Qed.

Lemma analyze_local_no_branch_neutral_witness :
  mentalState (analyze_local_result 50 50) = "Neutral"
  /\ stressLevel (analyze_local_result 50 50) = 50.
Proof.
  apply (proj2 (analyze_local_no_branch_neutral (samples [20; 80]) (samples [50]) (JArr [])
                  50 50 (analyze_local_result 50 50)
                  ltac:(vm_compute; reflexivity) ltac:(vm_compute; reflexivity)
                  ltac:(vm_compute; reflexivity)));
    vm_compute; intros [Ha Hb]; discriminate.
Defined.

(** C5 fails: attention samples 20 and 80 (range 60, above any threshold
    of 30 to 40) with meditation 50 give [Neutral] and 50, not
    [Stressed] and 85. *)
Lemma analyze_local_wide_range_not_stressed :
  (80 - 20 > 40)%Z
  /\ analyze_local (samples [20; 80]) (samples [50]) (JArr []) = Ok (analyze_local_result 50 50)
  /\ mentalState (analyze_local_result 50 50) = "Neutral"
  /\ stressLevel (analyze_local_result 50 50) = 50.
Proof. vm_compute. repeat split; reflexivity. Qed.

(** C6 (as amended): the parser's recommendation comes from the last
    trimmed line starting with [Recommendation:], with every occurrence of
    [Recommendation:] removed and the rest trimmed; when there is no such
    line, or that remainder is empty, it is the fixed sentence
    [Continue monitoring your brainwaves regularly.]; it is never empty. *)
Theorem parse_groq_recommendation (response : string) :
  snd (parse_groq_response response)
  = match rev (recommendation_lines (PyStr.split_nl (PyStr.strip response))) with
    | [] => default_recommendation
    | x :: _ =>
        let v := PyStr.strip (PyStr.replace_empty "Recommendation:" x) in
        if String.eqb v "" then default_recommendation else v
    end
  /\ snd (parse_groq_response response) <> "".
Proof.
  unfold parse_groq_response.
  pose proof (fold_parse_line_recommendation (PyStr.split_nl (PyStr.strip response))
                ("Neutral", "", "")) as H.
  destruct (fold_left parse_line (PyStr.split_nl (PyStr.strip response))
              ("Neutral", "", "")) as [[ms an] rc].
  simpl in H |- *. split.
  - rewrite H.
    destruct (rev (recommendation_lines (PyStr.split_nl (PyStr.strip response))));
      reflexivity.
  - destruct (String.eqb rc "") eqn:E; [discriminate|].
    apply String.eqb_neq in E. exact E.
Qed.

(** C6 fails: a reply whose last non-empty line is [Do yoga daily] and
    that has no [Recommendation:] line gets the fixed sentence. *)
Lemma parse_recommendation_not_last_line :
  snd (parse_groq_response ("Hello" ++ String PyStr.newline "Do yoga daily"))
  = default_recommendation
  /\ default_recommendation <> "Do yoga daily".
Proof. split; [vm_compute; reflexivity | discriminate]. Qed.

(** C7: a body on which [request.json] raises (not JSON, or empty), and a
    JSON body that is a non-empty list, never reach the validation: the
    [except] block reads the unassigned [attention_history] and the
    request answers 500, not 400. *)
Theorem analyze_unreadable_body_500 :
  forall (cfg : config) (http : http_outcome),
  analyze_eeg cfg http None = Resp500
  /\ analyze_eeg cfg http (Some (JArr [JNum 1])) = Resp500.
Proof. intros cfg http. split; reflexivity. Qed.



(** C9 (as amended): in [analyze_local], when branches 1-3 do not match,
    the label is [Tired] when both averages are below 30 and [Neutral]
    otherwise. *)
Theorem analyze_local_tired_below_30 (att med blink : json) (a m : Q) (r : analysis_result) :
  series_mean att = Ok a -> series_mean med = Ok m ->
  analyze_local att med blink = Ok r ->
  ~ ((70 < a)%Q /\ (m < 40)%Q) ->
  ~ ((a < 40)%Q /\ (70 < m)%Q) ->
  ~ ((60 < a)%Q /\ (60 < m)%Q) ->
  ((a < 30)%Q /\ (m < 30)%Q -> mentalState r = "Tired")
  /\ (~ ((a < 30)%Q /\ (m < 30)%Q) -> mentalState r = "Neutral").
Proof.
  intros Ha Hm H H1 H2 H3. rewrite (analyze_local_eq _ _ _ _ _ _ Ha Hm H).
  unfold analyze_local_result. cbv zeta.
  destruct_thresholds; simpl; split; intro; first [reflexivity | tauto].
Qed.

Lemma analyze_local_tired_below_30_witness :
  mentalState (analyze_local_result 20 25) = "Tired".
Proof.
  apply (proj1 (analyze_local_tired_below_30 (samples [20]) (samples [25]) (JArr [])
                  20 25 (analyze_local_result 20 25)
                  ltac:(vm_compute; reflexivity) ltac:(vm_compute; reflexivity)
                  ltac:(vm_compute; reflexivity)
                  ltac:(vm_compute; intros [Ha Hb]; discriminate)
                  ltac:(vm_compute; intros [Ha Hb]; discriminate)
                  ltac:(vm_compute; intros [Ha Hb]; discriminate))).
  split; vm_compute; reflexivity.
Defined.

(** C9 fails: both averages at 35 (below 40, not below 30) give
    [Neutral]. *)
Lemma analyze_local_35_not_tired :
  analyze_local (samples [35]) (samples [35]) (JArr []) = Ok (analyze_local_result 35 35)
  /\ mentalState (analyze_local_result 35 35) = "Neutral".
Proof. split; vm_compute; reflexivity. Qed.

(** C10: [answer_local] answers with the greeting whenever the lowercased
    question contains [hi] anywhere, before any later keyword family. *)
Theorem answer_local_hi_greets (q : string) :
  PyStr.contains "hi" (PyStr.lower q) = true ->
  answer_local q = greeting_answer.
Proof.
  intro H. unfold answer_local, any_in. simpl existsb. rewrite H. reflexivity.
Qed.

Lemma answer_local_hi_greets_witness :
  PyStr.contains "hi" (PyStr.lower "How does this machine work?") = true
  /\ any_in ["how"; "use"; "work"] (PyStr.lower "How does this machine work?") = true
  /\ answer_local "How does this machine work?" = greeting_answer.
Proof.
  assert (H : PyStr.contains "hi" (PyStr.lower "How does this machine work?") = true)
    by (vm_compute; reflexivity).
  split; [exact H|]. split; [vm_compute; reflexivity|].
  apply answer_local_hi_greets. exact H.
Defined.

(** ** Further properties of the code *)

(** Both flags of [/health] are set exactly when [/api/analyze] and
    [/api/question] take the AI path. *)
Lemma ai_configured_health (cfg : config) :
  ai_configured cfg = ai_enabled_flag (health cfg) && ai_configured_flag (health cfg).
Proof. unfold ai_configured, health. simpl. symmetry. apply andb_assoc. Qed.

(** For an object body whose three averages are computed without raising,
    the provider's reply can change the result of [/api/analyze] exactly
    when [/health] reports the AI as both enabled and configured. *)
Theorem analyze_depends_on_provider_iff_health (cfg : config)
  (kvs : list (string * json)) (a m b : Q) :
  series_mean (get_or "attentionHistory" kvs (JArr [])) = Ok a ->
  series_mean (get_or "meditationHistory" kvs (JArr [])) = Ok m ->
  blink_mean (get_or "blinkHistory" kvs (JArr [])) = Ok b ->
  ((forall h1 h2 : http_outcome,
       analyze_eeg cfg h1 (Some (JObj kvs)) = analyze_eeg cfg h2 (Some (JObj kvs)))
   <-> ai_enabled_flag (health cfg) && ai_configured_flag (health cfg) = false).
Proof.
  intros Ha Hm Hb. rewrite <- ai_configured_health.
  destruct (ai_configured cfg) eqn:Hai.
  - split; [|discriminate]. intro Hall.
    specialize (Hall TransportFailure (groq_reply "Mental State: Anxious")).
    rewrite (analyze_eeg_valid cfg TransportFailure kvs a m Ha Hm),
      (analyze_eeg_valid cfg (groq_reply "Mental State: Anxious") kvs a m Ha Hm), Hai
      in Hall.
    rewrite (analyze_with_groq_no_string _ _ _ TransportFailure a m b) in Hall;
      [| intros s C; discriminate C | assumption | assumption | assumption].
    rewrite (analyze_with_groq_reply _ _ _ _ a m b "Mental State: Anxious") in Hall;
      try assumption; [|reflexivity].
    assert (P : parse_groq_response "Mental State: Anxious"
                = ("Anxious", "Mental State: Anxious", default_recommendation))
      by (vm_compute; reflexivity).
    rewrite P in Hall. cbv beta iota in Hall. injection Hall as Heq.
    pose proof (analyze_local_simple_canonical a m b) as Hc.
    rewrite Heq in Hc. vm_compute in Hc. discriminate Hc.
  - split; [reflexivity|]. intros _ h1 h2.
    rewrite (analyze_eeg_valid cfg h1 kvs a m Ha Hm),
      (analyze_eeg_valid cfg h2 kvs a m Ha Hm), Hai.
    reflexivity.
Qed.

Lemma analyze_depends_on_provider_iff_health_witness :
  ai_enabled_flag (health (mk_config false "gsk_real_key"))
  && ai_configured_flag (health (mk_config false "gsk_real_key")) = false
  /\ forall h1 h2, analyze_eeg (mk_config false "gsk_real_key") h1
                     (Some (JObj (eeg_fields (samples [50]) (samples [50]) JNull)))
                   = analyze_eeg (mk_config false "gsk_real_key") h2
                     (Some (JObj (eeg_fields (samples [50]) (samples [50]) JNull))).
Proof.
  assert (H : ai_enabled_flag (health (mk_config false "gsk_real_key"))
              && ai_configured_flag (health (mk_config false "gsk_real_key")) = false)
    by reflexivity.
  split; [exact H|].
  apply (proj2 (analyze_depends_on_provider_iff_health (mk_config false "gsk_real_key")
                  (eeg_fields (samples [50]) (samples [50]) JNull) 50 50 0
                  ltac:(vm_compute; reflexivity) ltac:(vm_compute; reflexivity)
                  ltac:(vm_compute; reflexivity))).
  exact H.
Defined.

(** The two rule-based classifiers agree: whenever [analyze_local]
    returns, its label and stress level are those of
    [analyze_local_simple] on the same averages, whatever the blink
    average (only the texts differ). *)
Theorem analyze_local_agrees_with_simple (att med blink : json) (r : analysis_result) :
  analyze_local att med blink = Ok r ->
  exists a m, series_mean att = Ok a /\ series_mean med = Ok m
    /\ forall avg_blink : Q,
         mentalState r = mentalState (analyze_local_simple a m avg_blink)
         /\ stressLevel r = stressLevel (analyze_local_simple a m avg_blink).
Proof.
  intro H. destruct (analyze_local_ok _ _ _ _ H) as (a & m & b & Ha & Hm & _ & _ & ->).
  exists a, m. split; [exact Ha|]. split; [exact Hm|]. intro avg_blink.
  unfold analyze_local_result, analyze_local_simple. cbv zeta.
  case_ifs; split; reflexivity.
Qed.

Lemma analyze_local_agrees_with_simple_witness :
  exists a m, series_mean (samples [80; 90]) = Ok a /\ series_mean (samples [20]) = Ok m
    /\ forall avg_blink : Q,
         mentalState (analyze_local_result 85 20)
         = mentalState (analyze_local_simple a m avg_blink)
         /\ stressLevel (analyze_local_result 85 20)
            = stressLevel (analyze_local_simple a m avg_blink).
Proof.
  apply (analyze_local_agrees_with_simple (samples [80; 90]) (samples [20]) (JArr [])).
  vm_compute. reflexivity.
Defined.

(** In [analyze_local] the stress level is determined by the label:
    Stressed 75, Relaxed 25, Focused 30, Tired and Neutral 50. *)
Theorem analyze_local_label_stress (att med blink : json) (r : analysis_result) :
  analyze_local att med blink = Ok r ->
  (mentalState r = "Stressed" <-> stressLevel r = 75)
  /\ (mentalState r = "Relaxed" <-> stressLevel r = 25)
  /\ (mentalState r = "Focused" <-> stressLevel r = 30)
  /\ (mentalState r = "Tired" \/ mentalState r = "Neutral" <-> stressLevel r = 50).
Proof.
  intro H. destruct (analyze_local_ok _ _ _ _ H) as (a & m & b & _ & _ & _ & _ & ->).
  unfold analyze_local_result, calculate_stress_level. cbv zeta.
  case_ifs; simpl; repeat split; intros; try reflexivity;
    try (intuition discriminate).
Qed.

Lemma analyze_local_label_stress_witness :
  mentalState (analyze_local_result 80 20) = "Stressed"
  <-> stressLevel (analyze_local_result 80 20) = 75.
Proof.
  apply (proj1 (analyze_local_label_stress (samples [80]) (samples [20]) (JArr [])
                  (analyze_local_result 80 20) ltac:(vm_compute; reflexivity))).
Defined.



(** [analyze_with_groq] never takes the stress level from the provider:
    whenever it returns, the stress level is [calculate_stress_level] of
    the two averages. *)
Theorem analyze_with_groq_stress_from_averages (att med blink : json) (http : http_outcome)
  (a m : Q) (r : analysis_result) :
  series_mean att = Ok a -> series_mean med = Ok m ->
  analyze_with_groq att med blink http = Ok r ->
  stressLevel r = calculate_stress_level a m.
Proof.
  intros Ha Hm H.
  destruct (analyze_with_groq_ok _ _ _ _ _ H)
    as (a' & m' & b & Ha' & Hm' & _ & [[s [_ ->]] | [_ ->]]);
    rewrite Ha in Ha'; rewrite Hm in Hm'; injection Ha' as <-; injection Hm' as <-.
  - destruct (parse_groq_response s) as [[ms an] rc]. reflexivity.
  - apply analyze_local_simple_stress.
Qed.

Lemma analyze_with_groq_stress_from_averages_witness :
  stressLevel (mk_result "Anxious" "Mental State: Anxious" default_recommendation 75)
  = calculate_stress_level 80 20.
Proof.
  apply (analyze_with_groq_stress_from_averages (samples [80]) (samples [20]) JNull
           (groq_reply "Mental State: Anxious") 80 20);
    vm_compute; reflexivity.
Defined.

(** [analyze_with_groq] returns the rule-based result whenever the provider
    call does not yield a string: a raised exception, but also a [content]
    that is null, a number, a list or an object. *)
Theorem analyze_with_groq_fallback_unless_string (att med blink : json) (http : http_outcome)
  (a m b : Q) :
  (forall s, call_groq_api http <> Ok (JStr s)) ->
  series_mean att = Ok a -> series_mean med = Ok m -> blink_mean blink = Ok b ->
  analyze_with_groq att med blink http = Ok (analyze_local_simple a m b).
Proof. exact (analyze_with_groq_no_string att med blink http a m b). Qed.

Lemma analyze_with_groq_fallback_unless_string_witness :
  analyze_with_groq (samples [80]) (samples [20]) (JArr [])
    (HttpReply 200 "{}" (Some (JObj [("choices",
        JArr [JObj [("message", JObj [("content", JNull)])]])])))
  = Ok (analyze_local_simple 80 20 0).
Proof.
  apply analyze_with_groq_fallback_unless_string;
    [intros s H; discriminate H | vm_compute; reflexivity ..].
Defined.

(** [/api/question] on the AI path with a non-empty string question:
    when the provider call raises, the answer is the offline FAQ answer;
    when it succeeds, its [content] is passed through unchanged, even when
    it is not a string. *)
Theorem ask_question_ai_path (cfg : config) (http : http_outcome)
  (kvs : list (string * json)) (q : string) :
  ai_configured cfg = true -> get_or "question" kvs (JStr "") = JStr q -> q <> "" ->
  (forall e, call_groq_api http = Err e ->
     ask_question cfg http (Some (JObj kvs)) = Resp200 (JStr (answer_local q)))
  /\ (forall v, call_groq_api http = Ok v ->
     ask_question cfg http (Some (JObj kvs)) = Resp200 v).
Proof.
  intros Hai Hq Hne.
  assert (Hobj : py_truthy (JObj kvs) = true).
  { destruct kvs as [|kv kvs]; [|reflexivity].
    cbv in Hq. injection Hq as <-. contradiction. }
  assert (Hqt : py_truthy (JStr q) = true).
  { unfold py_truthy. destruct (String.eqb_spec q ""); [contradiction | reflexivity]. }
  unfold ask_question. cbv beta iota zeta. rewrite Hobj, Hq, Hqt, Hai.
  unfold answer_with_groq.
  split; intros x Hx; rewrite Hx; reflexivity.
Qed.

Lemma ask_question_ai_path_witness :
  ask_question (mk_config true "gsk_real_key") TransportFailure
    (Some (JObj [("question", JStr "what is focus?")]))
  = Resp200 (JStr (answer_local "what is focus?")).
Proof.
  apply (proj1 (ask_question_ai_path (mk_config true "gsk_real_key") TransportFailure
                  [("question", JStr "what is focus?")] "what is focus?"
                  eq_refl eq_refl ltac:(discriminate)) RequestException).
  reflexivity.
Defined.

(** When no trimmed line of the reply starts with [Analysis:], the
    parser's analysis is the first 250 characters of the raw reply. *)
Theorem parse_groq_analysis_default (response : string) :
  analysis_lines (PyStr.split_nl (PyStr.strip response)) = [] ->
  snd (fst (parse_groq_response response)) = PyStr.slice_to 250 response
  /\ (String.length (snd (fst (parse_groq_response response))) <= 250)%nat.
Proof.
  intro Hnone. unfold parse_groq_response.
  pose proof (fold_parse_line_no_analysis (PyStr.split_nl (PyStr.strip response))
                ("Neutral", "", "") Hnone) as H.
  destruct (fold_left parse_line (PyStr.split_nl (PyStr.strip response))
              ("Neutral", "", "")) as [[ms an] rc].
  simpl in H |- *. subst an. simpl. split; [reflexivity|].
  apply substring_0_length.
Qed.

Lemma parse_groq_analysis_default_witness :
  snd (fst (parse_groq_response "You seem calm today.")) = "You seem calm today.".
Proof.
  apply (parse_groq_analysis_default "You seem calm today."). vm_compute. reflexivity.
Defined.

(** The parser's analysis comes from the last trimmed line starting with
    [Analysis:], with every occurrence of [Analysis:] removed and the rest
    trimmed; when there is no such line, or that remainder is empty, it is
    the first 250 characters of the raw reply.  So it is empty only when
    the reply itself is empty. *)
Theorem parse_groq_analysis_nonempty (response : string) :
  snd (fst (parse_groq_response response))
  = match rev (analysis_lines (PyStr.split_nl (PyStr.strip response))) with
    | [] => PyStr.slice_to 250 response
    | x :: _ =>
        let v := PyStr.strip (PyStr.replace_empty "Analysis:" x) in
        if String.eqb v "" then PyStr.slice_to 250 response else v
    end
  /\ (response <> "" -> snd (fst (parse_groq_response response)) <> "").
Proof.
  unfold parse_groq_response.
  pose proof (fold_parse_line_analysis (PyStr.split_nl (PyStr.strip response))
                ("Neutral", "", "")) as H.
  destruct (fold_left parse_line (PyStr.split_nl (PyStr.strip response))
              ("Neutral", "", "")) as [[ms an] rc].
  simpl in H |- *. split.
  - rewrite H.
    destruct (rev (analysis_lines (PyStr.split_nl (PyStr.strip response))));
      reflexivity.
  - intro Hr. destruct (String.eqb an "") eqn:E.
    + destruct response as [|c r]; [contradiction|]. discriminate.
    + apply String.eqb_neq in E. exact E.
Qed.

Lemma parse_groq_analysis_nonempty_witness :
  snd (fst (parse_groq_response "Analysis:")) <> "".
Proof. apply (proj2 (parse_groq_analysis_nonempty "Analysis:")). discriminate. Defined.

(** On an object body whose attention or meditation series is falsy,
    [/api/analyze] answers 400 before any average is computed; when the
    three averages are computed without raising, it answers 200, whatever
    the configuration, the provider and an empty blink series. *)
Theorem analyze_object_validation (cfg : config) (http : http_outcome)
  (kvs : list (string * json)) :
  (py_truthy (get_or "attentionHistory" kvs (JArr [])) = false
   \/ py_truthy (get_or "meditationHistory" kvs (JArr [])) = false ->
   exists msg, analyze_eeg cfg http (Some (JObj kvs)) = Resp400 msg)
  /\ (forall a m b,
        series_mean (get_or "attentionHistory" kvs (JArr [])) = Ok a ->
        series_mean (get_or "meditationHistory" kvs (JArr [])) = Ok m ->
        blink_mean (get_or "blinkHistory" kvs (JArr [])) = Ok b ->
        exists r, analyze_eeg cfg http (Some (JObj kvs)) = Resp200 r).
Proof.
  split.
  - intro H. unfold analyze_eeg. cbv beta iota zeta.
    destruct (py_truthy (JObj kvs)); cbn [negb]; [|eexists; reflexivity].
    destruct H as [H | H]; rewrite H; cbn [negb orb].
    + eexists; reflexivity.
    + rewrite orb_true_r. eexists; reflexivity.
  - intros a m b Ha Hm Hb. rewrite (analyze_eeg_valid cfg http kvs a m Ha Hm).
    rewrite (local_fallback_eq _ _ _ a m b Ha Hm Hb).
    destruct (if ai_configured cfg then _ else _); eexists; reflexivity.
Qed.

Lemma analyze_object_validation_witness :
  (exists msg, analyze_eeg (mk_config true "gsk_real_key") TransportFailure
                 (Some (JObj (eeg_fields (JArr []) (samples [50]) (JArr [])))) = Resp400 msg)
  /\ exists r, analyze_eeg (mk_config true "gsk_real_key") TransportFailure
                 (Some (JObj (eeg_fields (samples [50]) (samples [50]) (JArr [])))) = Resp200 r.
Proof.
  split.
  - apply (proj1 (analyze_object_validation (mk_config true "gsk_real_key") TransportFailure
                    (eeg_fields (JArr []) (samples [50]) (JArr [])))).
    left. reflexivity.
  - apply (proj2 (analyze_object_validation (mk_config true "gsk_real_key") TransportFailure
                    (eeg_fields (samples [50]) (samples [50]) (JArr []))) 50%Q 50%Q 0%Q);
      vm_compute; reflexivity.
Defined.

(** Offline, when [calculate_variance] raises on the attention series
    (a term [(x - mean) ** 2] beyond the float range), [analyze_local]
    raises and the handler answers 200 with [analyze_local_simple] on the
    averages. *)
Theorem analyze_variance_overflow_falls_back (cfg : config) (http : http_outcome)
  (kvs : list (string * json)) (a m b : Q) (xs : list Z) (e : py_exc) :
  ai_configured cfg = false ->
  series_mean (get_or "attentionHistory" kvs (JArr [])) = Ok a ->
  series_mean (get_or "meditationHistory" kvs (JArr [])) = Ok m ->
  blink_mean (get_or "blinkHistory" kvs (JArr [])) = Ok b ->
  as_int_list (get_or "attentionHistory" kvs (JArr [])) = Ok xs ->
  calculate_variance xs = Err e ->
  analyze_eeg cfg http (Some (JObj kvs)) = Resp200 (analyze_local_simple a m b).
Proof.
  intros Hai Ha Hm Hb Hxs Hv.
  assert (Hal : analyze_local (get_or "attentionHistory" kvs (JArr []))
                  (get_or "meditationHistory" kvs (JArr []))
                  (get_or "blinkHistory" kvs (JArr [])) = Err e).
  { unfold analyze_local. rewrite Ha, Hm, Hb. cbn [bind]. rewrite Hxs. cbn [bind].
    rewrite Hv. reflexivity. }
  rewrite (analyze_eeg_valid cfg http kvs a m Ha Hm), Hai, Hal.
  rewrite (local_fallback_eq _ _ _ a m b Ha Hm Hb). reflexivity.
Qed.

Lemma analyze_variance_overflow_falls_back_witness :
  analyze_eeg (mk_config false "") TransportFailure
    (Some (JObj (eeg_fields (samples [2 ^ 600; 0]) (samples [20]) (JArr []))))
  = Resp200 (analyze_local_simple (inject_Z (2 ^ 599)) 20 0).
Proof.
  apply (analyze_variance_overflow_falls_back (mk_config false "") TransportFailure
           (eeg_fields (samples [2 ^ 600; 0]) (samples [20]) (JArr []))
           (inject_Z (2 ^ 599)) 20 0 [2 ^ 600; 0] OverflowError);
    vm_compute; reflexivity.
Defined.
Lemma lower_char_idem (c : ascii) : PyStr.lower_char (PyStr.lower_char c) = PyStr.lower_char c.
Proof. destruct c as [[] [] [] [] [] [] [] []]; vm_compute; reflexivity. Qed.

Lemma lower_idem (s : string) : PyStr.lower (PyStr.lower s) = PyStr.lower s.
Proof. induction s as [|c s IH]; simpl; [reflexivity|]. rewrite lower_char_idem, IH. reflexivity. Qed.

(** The offline FAQ responder ignores letter case: a question and its
    lowercase form get the same answer. *)
Theorem answer_local_lower (q : string) : answer_local (PyStr.lower q) = answer_local q.
Proof. unfold answer_local. rewrite lower_idem. reflexivity. Qed.

Lemma prefix_self_app (s q : string) : String.prefix s (s ++ q) = true.
Proof.
  induction s as [|c s IH]; [destruct q; reflexivity|]. simpl.
  destruct (ascii_dec c c); [exact IH | contradiction].
Qed.

Lemma contains_unfold (sub s : string) :
  PyStr.contains sub s
  = if String.prefix sub s then true
    else match s with EmptyString => false | String _ r => PyStr.contains sub r end.
Proof. destruct s; reflexivity. Qed.

Lemma contains_self_app (s q : string) : PyStr.contains s (s ++ q) = true.
Proof. rewrite contains_unfold, prefix_self_app. reflexivity. Qed.

Lemma contains_app_l (s p t : string) :
  PyStr.contains s t = true -> PyStr.contains s (p ++ t) = true.
Proof.
  intro H. induction p as [|c p IH]; [exact H|].
  simpl (String c p ++ t). rewrite contains_unfold, IH.
  destruct (String.prefix s (String c (p ++ t))); reflexivity.
Qed.

(** Every analysis text of [analyze_local] reports the truncated average
    attention and the truncated average meditation (the float averages,
    after [int]) as decimal integers. *)
Theorem analyze_local_analysis_reports_averages (att med blink : json) (a m : Q)
  (r : analysis_result) :
  series_mean att = Ok a -> series_mean med = Ok m ->
  analyze_local att med blink = Ok r ->
  PyStr.contains (PyStr.str_Z (py_int a)) (analysis r) = true
  /\ PyStr.contains (PyStr.str_Z (py_int m)) (analysis r) = true.
Proof.
  intros Ha Hm H. rewrite (analyze_local_eq _ _ _ _ _ _ Ha Hm H).
  unfold analyze_local_result. cbv zeta.
  case_ifs; cbv beta iota delta [analysis];
  split; repeat first [apply contains_self_app | apply contains_app_l].
Qed.

Lemma analyze_local_analysis_reports_averages_witness :
  PyStr.contains (PyStr.str_Z (py_int 9007199254740992))
    (analysis (analyze_local_result 9007199254740992 20)) = true.
Proof.
  apply (proj1 (analyze_local_analysis_reports_averages
                  (samples [9007199254740993]) (samples [20]) (JArr [])
                  9007199254740992 20 (analyze_local_result 9007199254740992 20)
                  ltac:(vm_compute; reflexivity) ltac:(vm_compute; reflexivity)
                  ltac:(vm_compute; reflexivity))).
Defined.

(** [call_groq_api] yields a value only for a reply with status 200 whose
    body is JSON: a transport failure, any other status or a body that is
    not JSON always raises. *)
Theorem call_groq_api_ok_inv (http : http_outcome) (v : json) :
  call_groq_api http = Ok v ->
  exists text body, http = HttpReply 200 text (Some body).
Proof.
  destruct http as [|status text body]; simpl; [discriminate|].
  destruct (Z.eqb_spec status 200) as [E|E]; simpl; [|discriminate].
  destruct body as [j|]; [|discriminate].
  intros _. subst status. exists text, j. reflexivity.
Qed.

Lemma call_groq_api_ok_inv_witness :
  exists text body, groq_reply "hi" = HttpReply 200 text (Some body).
Proof. apply (call_groq_api_ok_inv (groq_reply "hi") (JStr "hi")). reflexivity. Defined.

(** *** Parsing a reply in the requested format *)

Lemma list_ascii_app (a b : string) :
  list_ascii_of_string (a ++ b) = (list_ascii_of_string a ++ list_ascii_of_string b)%list.
Proof. induction a as [|c a IH]; simpl; [reflexivity|]. rewrite IH. reflexivity. Qed.

Lemma drop_space_head (l : list ascii) :
  PyStr.drop_space l = [] \/
  exists d k, PyStr.drop_space l = d :: k /\ PyStr.is_space d = false.
Proof.
  induction l as [|c l IH]; simpl; [left; reflexivity|].
  destruct (PyStr.is_space c) eqn:E; [exact IH|]. right. exists c, l. split; [reflexivity|exact E].
Qed.

Lemma strip_last (s : string) :
  s <> "" -> PyStr.strip s = s ->
  exists d k, rev (list_ascii_of_string s) = d :: k /\ PyStr.is_space d = false.
Proof.
  intros Hne Hs. unfold PyStr.strip in Hs.
  set (D := PyStr.drop_space (rev (PyStr.drop_space (list_ascii_of_string s)))) in Hs.
  assert (Hl : list_ascii_of_string s = rev D).
  { rewrite <- Hs. apply list_ascii_of_string_of_list_ascii. }
  rewrite Hl, rev_involutive.
  destruct (drop_space_head (rev (PyStr.drop_space (list_ascii_of_string s))))
    as [H0 | (d & k & Hd & Hsp)]; [fold D in H0 | fold D in Hd].
  - exfalso. apply Hne. rewrite <- (string_of_list_ascii_of_string s), Hl, H0. reflexivity.
  - exists d, k. split; assumption.
Qed.

Lemma strip_id (s : string) (c d : ascii) (l k : list ascii) :
  list_ascii_of_string s = c :: l -> PyStr.is_space c = false ->
  rev (list_ascii_of_string s) = d :: k -> PyStr.is_space d = false ->
  PyStr.strip s = s.
Proof.
  intros H1 Hc H2 Hd. unfold PyStr.strip.
  assert (E1 : PyStr.drop_space (list_ascii_of_string s) = list_ascii_of_string s)
    by (rewrite H1; simpl; rewrite Hc; reflexivity).
  rewrite E1, H2. simpl. rewrite Hd, <- H2, rev_involutive.
  apply string_of_list_ascii_of_string.
Qed.

(** A label line [P ++ x] with a non-space first character and a field
    value [x] is its own trim. *)
Lemma strip_line (p x : string) (c : ascii) (l : list ascii) :
  list_ascii_of_string p = c :: l -> PyStr.is_space c = false ->
  x <> "" -> PyStr.strip x = x -> PyStr.strip (p ++ x) = p ++ x.
Proof.
  intros Hp Hc Hne Hx. destruct (strip_last x Hne Hx) as (d & k & Hd & Hsp).
  apply (strip_id _ c d (l ++ list_ascii_of_string x)%list (k ++ rev (list_ascii_of_string p))%list);
    [rewrite list_ascii_app, Hp; reflexivity | exact Hc | | exact Hsp].
  rewrite list_ascii_app, rev_app_distr, Hd. reflexivity.
Qed.

Lemma split_nl_aux_app (cur lx ly : list ascii) :
  existsb (Ascii.eqb PyStr.newline) lx = false ->
  PyStr.split_nl_aux cur (lx ++ PyStr.newline :: ly)%list
  = string_of_list_ascii (rev cur ++ lx)%list :: PyStr.split_nl_aux [] ly.
Proof.
  revert cur. induction lx as [|c lx IH]; intros cur H; cbn [app PyStr.split_nl_aux].
  - rewrite app_nil_r. reflexivity.
  - cbn [existsb] in H. apply orb_false_iff in H as [Hc Hr].
    rewrite Ascii.eqb_sym, Hc. rewrite IH by exact Hr. cbn [rev]. rewrite <- app_assoc. reflexivity.
Qed.

Lemma split_nl_aux_single (cur lx : list ascii) :
  existsb (Ascii.eqb PyStr.newline) lx = false ->
  PyStr.split_nl_aux cur lx = [string_of_list_ascii (rev cur ++ lx)%list].
Proof.
  revert cur. induction lx as [|c lx IH]; intros cur H; cbn [app PyStr.split_nl_aux].
  - rewrite app_nil_r. reflexivity.
  - cbn [existsb] in H. apply orb_false_iff in H as [Hc Hr].
    rewrite Ascii.eqb_sym, Hc. rewrite IH by exact Hr. cbn [rev]. rewrite <- app_assoc. reflexivity.
Qed.

Lemma split_nl_app (x y : string) :
  existsb (Ascii.eqb PyStr.newline) (list_ascii_of_string x) = false ->
  PyStr.split_nl (x ++ String PyStr.newline y) = x :: PyStr.split_nl y.
Proof.
  intro H. unfold PyStr.split_nl. rewrite list_ascii_app. simpl list_ascii_of_string at 2.
  rewrite split_nl_aux_app by exact H. simpl. rewrite string_of_list_ascii_of_string. reflexivity.
Qed.

Lemma split_nl_single (x : string) :
  existsb (Ascii.eqb PyStr.newline) (list_ascii_of_string x) = false ->
  PyStr.split_nl x = [x].
Proof.
  intro H. unfold PyStr.split_nl. rewrite split_nl_aux_single by exact H.
  simpl. rewrite string_of_list_ascii_of_string. reflexivity.
Qed.

Lemma string_length_app (a b : string) :
  String.length (a ++ b) = (String.length a + String.length b)%nat.
Proof. induction a as [|c a IH]; simpl; [reflexivity|]. rewrite IH. reflexivity. Qed.

Lemma substring_0_full (m : nat) (t : string) :
  (String.length t <= m)%nat -> substring 0 m t = t.
Proof.
  revert m. induction t as [|c t IH]; intros m H; destruct m as [|m]; simpl in *;
    try reflexivity; try lia.
  rewrite IH by lia. reflexivity.
Qed.

Lemma substring_skip (a t : string) (m : nat) :
  substring (String.length a) m (a ++ t) = substring 0 m t.
Proof. induction a as [|c a IH]; [reflexivity|]. simpl. exact IH. Qed.

Lemma remove_prefix (f : nat) (old t : string) :
  PyStr.remove_all_fuel (S f) old (old ++ t) = PyStr.remove_all_fuel f old t.
Proof.
  cbn [PyStr.remove_all_fuel]. rewrite prefix_self_app, substring_skip.
  rewrite substring_0_full; [reflexivity|]. rewrite string_length_app. lia.
Qed.

Lemma remove_absent (f : nat) (old t : string) :
  PyStr.contains old t = false -> PyStr.remove_all_fuel f old t = t.
Proof.
  revert t. induction f as [|f IH]; intros t H; [reflexivity|].
  cbn [PyStr.remove_all_fuel]. rewrite contains_unfold in H.
  destruct (String.prefix old t); [discriminate|].
  destruct t as [|c t]; [reflexivity|]. rewrite IH by exact H. reflexivity.
Qed.

Lemma rev_list_app (p x : string) :
  rev (list_ascii_of_string (p ++ x))
  = (rev (list_ascii_of_string x) ++ rev (list_ascii_of_string p))%list.
Proof. rewrite list_ascii_app. apply rev_app_distr. Qed.

Lemma no_newline_app (p x : string) :
  existsb (Ascii.eqb PyStr.newline) (list_ascii_of_string p) = false ->
  existsb (Ascii.eqb PyStr.newline) (list_ascii_of_string x) = false ->
  existsb (Ascii.eqb PyStr.newline) (list_ascii_of_string (p ++ x)) = false.
Proof. intros Hp Hx. rewrite list_ascii_app, existsb_app, Hp, Hx. reflexivity. Qed.

(** One labelled line [label ++ " " ++ x]: its trim is itself, and removing
    the label and trimming gives back [x]. *)
Lemma labelled_field (label x : string) :
  x <> "" -> PyStr.strip x = x -> PyStr.contains label x = false ->
  String.prefix label (String " " x) = false ->
  PyStr.strip (PyStr.replace_empty label (label ++ String " " x)) = x.
Proof.
  intros Hne Hs Hc Hp. unfold PyStr.replace_empty.
  rewrite remove_prefix, remove_absent.
  - change (PyStr.strip (String " " x) = x). unfold PyStr.strip at 1. exact Hs.
  - rewrite contains_unfold, Hp. exact Hc.
Qed.

Lemma parse_format_reply_fields (L A R : string) :
  field_ok L -> field_ok A -> field_ok R ->
  PyStr.contains "Mental State:" L = false ->
  PyStr.contains "Analysis:" A = false ->
  PyStr.contains "Recommendation:" R = false ->
  parse_groq_response (format_reply L A R) = (L, A, R).
Proof.
  intros (HLne & HLs & HLn) (HAne & HAs & HAn) (HRne & HRs & HRn) HLc HAc HRc.
  destruct (strip_last R HRne HRs) as (d & k & Hd & Hsp).
  assert (Hstrip : PyStr.strip (format_reply L A R) = format_reply L A R).
  { eapply strip_id; [reflexivity | reflexivity | | exact Hsp].
    unfold format_reply.
    rewrite (rev_list_app ("Mental State: " ++ L)).
    change (list_ascii_of_string (String PyStr.newline
              (("Analysis: " ++ A) ++ String PyStr.newline ("Recommendation: " ++ R))))
      with (PyStr.newline :: list_ascii_of_string
              (("Analysis: " ++ A) ++ String PyStr.newline ("Recommendation: " ++ R))).
    cbn [rev]. rewrite (rev_list_app ("Analysis: " ++ A)).
    change (list_ascii_of_string (String PyStr.newline ("Recommendation: " ++ R)))
      with (PyStr.newline :: list_ascii_of_string ("Recommendation: " ++ R)).
    cbn [rev]. rewrite (rev_list_app "Recommendation: " R), Hd. reflexivity. }
  assert (Hsplit : PyStr.split_nl (format_reply L A R)
                   = ["Mental State: " ++ L; "Analysis: " ++ A; "Recommendation: " ++ R]).
  { unfold format_reply.
    rewrite split_nl_app by (apply no_newline_app; [reflexivity | exact HLn]).
    rewrite split_nl_app by (apply no_newline_app; [reflexivity | exact HAn]).
    rewrite split_nl_single by (apply no_newline_app; [reflexivity | exact HRn]).
    reflexivity. }
  assert (S1 : PyStr.strip ("Mental State: " ++ L) = "Mental State: " ++ L)
    by (eapply strip_line; [reflexivity | reflexivity | exact HLne | exact HLs]).
  assert (S2 : PyStr.strip ("Analysis: " ++ A) = "Analysis: " ++ A)
    by (eapply strip_line; [reflexivity | reflexivity | exact HAne | exact HAs]).
  assert (S3 : PyStr.strip ("Recommendation: " ++ R) = "Recommendation: " ++ R)
    by (eapply strip_line; [reflexivity | reflexivity | exact HRne | exact HRs]).
  assert (F1 : PyStr.strip (PyStr.replace_empty "Mental State:" ("Mental State: " ++ L)) = L)
    by (apply (labelled_field "Mental State:" L HLne HLs HLc); reflexivity).
  assert (F2 : PyStr.strip (PyStr.replace_empty "Analysis:" ("Analysis: " ++ A)) = A)
    by (apply (labelled_field "Analysis:" A HAne HAs HAc); reflexivity).
  assert (F3 : PyStr.strip (PyStr.replace_empty "Recommendation:" ("Recommendation: " ++ R)) = R)
    by (apply (labelled_field "Recommendation:" R HRne HRs HRc); reflexivity).
  assert (B1 : PyStr.startswith "Mental State:" ("Mental State: " ++ L) = true)
    by exact (prefix_self_app "Mental State:" (String " " L)).
  assert (B2 : PyStr.startswith "Analysis:" ("Analysis: " ++ A) = true)
    by exact (prefix_self_app "Analysis:" (String " " A)).
  assert (B3 : PyStr.startswith "Recommendation:" ("Recommendation: " ++ R) = true)
    by exact (prefix_self_app "Recommendation:" (String " " R)).
  assert (N2 : PyStr.startswith "Mental State:" ("Analysis: " ++ A) = false) by reflexivity.
  assert (N3 : PyStr.startswith "Mental State:" ("Recommendation: " ++ R) = false) by reflexivity.
  assert (N3' : PyStr.startswith "Analysis:" ("Recommendation: " ++ R) = false) by reflexivity.
  unfold parse_groq_response. rewrite Hstrip, Hsplit.
  cbn [fold_left]. unfold parse_line.
  rewrite S1, B1, F1. cbv beta iota zeta.
  rewrite S2, N2, B2, F2. cbv beta iota zeta.
  rewrite S3, N3, N3', B3, F3. cbv beta iota zeta.
  apply String.eqb_neq in HAne. apply String.eqb_neq in HRne.
  rewrite HAne, HRne. reflexivity.
Qed.

Lemma call_groq_api_reply (s : string) : call_groq_api (groq_reply s) = Ok (JStr s).
Proof. reflexivity. Qed.

(** On the AI path, with the three averages computed, a 200 reply in the
    requested three-line format gives its label, analysis and
    recommendation verbatim, with the stress level computed from the
    averages. *)
Theorem analyze_with_groq_format_reply (att med blink : json) (a m b : Q) (L A R : string) :
  series_mean att = Ok a -> series_mean med = Ok m -> blink_mean blink = Ok b ->
  field_ok L -> field_ok A -> field_ok R ->
  PyStr.contains "Mental State:" L = false ->
  PyStr.contains "Analysis:" A = false ->
  PyStr.contains "Recommendation:" R = false ->
  analyze_with_groq att med blink (groq_reply (format_reply L A R))
  = Ok (mk_result L A R (calculate_stress_level a m)).
Proof.
  intros Ha Hm Hb HL HA HR HLc HAc HRc.
  rewrite (analyze_with_groq_reply att med blink _ a m b (format_reply L A R) Ha Hm Hb
             (call_groq_api_reply _)).
  rewrite (parse_format_reply_fields L A R HL HA HR HLc HAc HRc). reflexivity.
Qed.

Lemma analyze_with_groq_format_reply_witness :
  analyze_with_groq (samples [90]) (samples [20]) (JArr [])
    (groq_reply (format_reply "Focused" "Balanced waves." "Keep going."))
  = Ok (mk_result "Focused" "Balanced waves." "Keep going." 75).
Proof.
  apply (analyze_with_groq_format_reply (samples [90]) (samples [20]) (JArr []) 90 20 0
           "Focused" "Balanced waves." "Keep going.");
    try (split; [discriminate | split; vm_compute; reflexivity]);
    vm_compute; reflexivity.
Defined.

(** A reply in the exact format the analysis prompt asks for is parsed
    back field by field, provided each field is non-empty, trimmed, on one
    line and does not repeat its own label. *)
Theorem parse_format_reply (L A R : string) :
  field_ok L -> field_ok A -> field_ok R ->
  PyStr.contains "Mental State:" L = false ->
  PyStr.contains "Analysis:" A = false ->
  PyStr.contains "Recommendation:" R = false ->
  parse_groq_response (format_reply L A R) = (L, A, R).
Proof. exact (parse_format_reply_fields L A R). Qed.

Lemma parse_format_reply_witness :
  parse_groq_response (format_reply "Tired" "Both levels are low." "Take a short nap.")
  = ("Tired", "Both levels are low.", "Take a short nap.").
Proof.
  apply parse_format_reply;
    try (split; [discriminate | split; vm_compute; reflexivity]);
    vm_compute; reflexivity.
Defined.
